(** * The item service: table store client, blob mirror and request handler

    A shallow embedding of [app/db.py] (class [Database]) together with the
    helpers of [tests/test_server.py] that read the two stores back.  The
    storage services themselves (the key-value table and the object bucket)
    are the environment: they are modelled as two finite maps inside a
    [world], every call to them is recorded in a trace, and a script of
    [faults] says which calls the environment makes fail. *)

From Stdlib Require Import String Ascii List ZArith.
From stdpp Require Import base option strings gmap.

Import ListNotations.
Local Open Scope string_scope.
Local Open Scope list_scope.

(** ** Data *)

(** The values an item field can hold: what [json.loads] produces for a
    request body (floating-point numbers are left out).  Which of them the
    table stores is the table call's affair: the client library refuses
    some (integers of more than 38 digits) before any request is sent. *)
#[local] Unset Elimination Schemes.
Inductive value : Type :=
| VNull
| VBool (b : bool)
| VNum (n : Z)
| VStr (s : string)
| VList (l : list value)
| VObj (fields : list (string * value)).
#[local] Set Elimination Schemes.

(** An item is a Python [dict] from field names to values. *)
Abbreviation item := (gmap string value).

(** The body of a bucket object: the text [json.dumps] gives for an item.
    The text is kept symbolically, as the item it serialises, so that
    [json_loads (json_dumps i) = i] holds by construction. *)
Inductive payload : Type :=
| JsonText (i : item).

Definition json_dumps (i : item) : payload := JsonText i.
Definition json_loads (p : payload) : item := match p with JsonText i => i end.

(** The exceptions that occur.  [ClientError] carries
    [e.response['Error']['Code']] and [e.response['Error']['Message']];
    [BotoCoreError] stands for the client library's exceptions that are not
    a [ClientError] (connection and time-out errors, parameter validation,
    waiter errors). *)
Inductive exn : Type :=
| ClientError (code message : string)
| BotoCoreError (name : string)
| NameError (name : string)
| KeyError (key : string).

(** What the environment can make a storage call do instead of succeeding:
    answer with an error response, or fail below the service protocol. *)
Inductive fault : Type :=
| ServiceError (code message : string)
| TransportError (name : string).

Definition exn_of_fault (f : fault) : exn :=
  match f with
  | ServiceError code message => ClientError code message
  | TransportError name => BotoCoreError name
  end.

(** The calls that reach a storage service. *)
Inductive call : Type :=
| TableLoad
| TableCreate
| TableWait
| TableGet (key : value)
| TablePut (it : item)
| TableDelete (key : value)
| BlobPut (key : value) (body : payload)
| BlobGet (key : value)
| BlobDelete (key : value).

Definition is_table_call (c : call) : bool :=
  match c with
  | BlobPut _ _ | BlobGet _ | BlobDelete _ => false
  | _ => true
  end.

(** The state of everything outside the process: the table ([None] while it
    does not exist), the bucket, what was printed, the calls made so far and
    the faults still to come (the head is for the next call; [None] or an
    exhausted script lets the call through). *)
Record world : Type := World {
  table : option (gmap string item);
  bucket : gmap string payload;
  stdout : list string;
  calls : list call;
  faults : list (option fault)
}.

Definition set_table (t : option (gmap string item)) (w : world) : world :=
  {| table := t; bucket := bucket w; stdout := stdout w;
     calls := calls w; faults := faults w |}.

Definition set_bucket (b : gmap string payload) (w : world) : world :=
  {| table := table w; bucket := b; stdout := stdout w;
     calls := calls w; faults := faults w |}.

Definition write_stdout (line : string) (w : world) : world :=
  {| table := table w; bucket := bucket w; stdout := stdout w ++ [line];
     calls := calls w; faults := faults w |}.

Definition record_call (c : call) (w : world) : world :=
  {| table := table w; bucket := bucket w; stdout := stdout w;
     calls := calls w ++ [c]; faults := tail (faults w) |}.

(** ** Computations: state and exceptions *)

Inductive result (A : Type) : Type :=
| Return (a : A)
| Raise (e : exn).
Arguments Return {A} a.
Arguments Raise {A} e.

Definition M (A : Type) : Type := world -> result A * world.

Definition ret {A} (a : A) : M A := fun w => (Return a, w).

Definition raise {A} (e : exn) : M A := fun w => (Raise e, w).

Definition bind {A B} (m : M A) (k : A -> M B) : M B :=
  fun w =>
    match m w with
    | (Return a, w') => k a w'
    | (Raise e, w') => (Raise e, w')
    end.

Declare Scope py_scope.
Delimit Scope py_scope with py.
Notation "x <- m ;; k" := (bind m (fun x => k))
  (at level 100, m at next level, right associativity) : py_scope.
Notation "m ;; k" := (bind m (fun _ => k))
  (at level 100, right associativity) : py_scope.
Local Open Scope py_scope.

(** [try: body except ClientError as e: handler]: only a [ClientError] is
    handed to the handler, with its code and message; every other exception
    leaves the statement. *)
Definition try_except_ClientError {A} (body : M A)
    (handler : string -> string -> M A) : M A :=
  fun w =>
    match body w with
    | (Raise (ClientError code message), w') => handler code message w'
    | other => other
    end.

(** [print(msg)] *)
Definition print (msg : string) : M unit :=
  fun w => (Return tt, write_stdout msg w).

(** ** The storage services *)

(** Any call to a service: it is recorded, and the environment's next fault,
    if there is one, is raised in place of the answer. *)
Definition request (c : call) : M unit :=
  fun w =>
    match faults w with
    | Some f :: _ => (Raise (exn_of_fault f), record_call c w)
    | _ => (Return tt, record_call c w)
    end.

(** The key schema of the table ([_create_table]: attribute [id], type
    [S]): a key is a string; the service rejects anything else.  The
    services refuse the empty string as well, which this function lets
    through: what depends on a call being accepted is stated on the outcome
    of that call, or for a key that has a row. *)
Definition key_of (v : value) : option string :=
  match v with
  | VStr s => Some s
  | _ => None
  end.

Definition ResourceNotFound : exn :=
  ClientError "ResourceNotFoundException" "Requested resource not found".

Definition ValidationError : exn :=
  ClientError "ValidationException"
    "The provided key element does not match the schema".

Definition with_table {A} (k : gmap string item -> M A) : M A :=
  fun w =>
    match table w with
    | Some t => k t w
    | None => (Raise ResourceNotFound, w)
    end.

Definition with_key {A} (v : option value) (k : string -> M A) : M A :=
  match v ≫= key_of with
  | Some s => k s
  | None => raise ValidationError
  end.

(** [self.table.load()] *)
Definition table_load : M unit :=
  request TableLoad ;; with_table (fun _ => ret tt).

(** [self.dynamodb.create_table(...)] *)
Definition dynamodb_create_table : M unit :=
  request TableCreate ;;
  fun w =>
    match table w with
    | Some _ =>
        (Raise (ClientError "ResourceInUseException" "Table already exists"), w)
    | None => (Return tt, set_table (Some ∅) w)
    end.

(** [get_waiter('table_exists').wait(...)] *)
Definition waiter_wait : M unit :=
  request TableWait ;;
  fun w =>
    match table w with
    | Some _ => (Return tt, w)
    | None => (Raise (BotoCoreError "WaiterError"), w)
    end.

(** The answer of [table.get_item]: a dict that has the key ['Item'] exactly
    when the row exists; [response.get('Item')] reads it. *)
Record response : Type := Response { Item : option item }.

Definition response_get_Item (r : response) : option item := Item r.

(** [self.table.get_item(Key={'id': item_id})] *)
Definition table_get_item (item_id : value) : M response :=
  request (TableGet item_id) ;;
  with_table (fun t =>
    with_key (Some item_id) (fun k => ret (Response (t !! k)))).

(** [self.table.put_item(Item=item)]: create or overwrite the row of the
    item's [id]. *)
Definition table_put_item (it : item) : M unit :=
  request (TablePut it) ;;
  with_table (fun t =>
    with_key (it !! "id") (fun k w => (Return tt, set_table (Some (<[k := it]> t)) w))).

(** [self.table.delete_item(Key={'id': item_id})]: deleting a row that does
    not exist is not an error of the service. *)
Definition table_delete_item (item_id : value) : M unit :=
  request (TableDelete item_id) ;;
  with_table (fun t =>
    with_key (Some item_id) (fun k w => (Return tt, set_table (Some (delete k t)) w))).

(** ** The blob store client *)

(** Modelled from the spec: the class [S3Bucket] of [app/s3.py], which
    [db.py] imports and which is not among the sources.  Section 4.2 of the
    specification: [put(id, serialized_payload)] writes or overwrites the
    object named [id]; [get(id)] gives its bytes or absent; [delete(id)]
    removes the object, and absence is not an error.  Object names are
    strings.  An exception of the service call leaves the method. *)
Module S3Bucket.

Definition with_name {A} (key : value) (k : string -> M A) : M A :=
  match key_of key with
  | Some s => k s
  | None => raise (BotoCoreError "ParamValidationError")
  end.

Definition put_object (key : value) (body : payload) : M unit :=
  request (BlobPut key body) ;;
  with_name key (fun k w => (Return tt, set_bucket (<[k := body]> (bucket w)) w)).

Definition get_object (key : value) : M (option payload) :=
  request (BlobGet key) ;;
  with_name key (fun k w => (Return (bucket w !! k), w)).

Definition delete_object (key : value) : M unit :=
  request (BlobDelete key) ;;
  with_name key (fun k w => (Return tt, set_bucket (delete k (bucket w)) w)).

End S3Bucket.

(** ** The module [app/db.py] *)

(** The names bound at module level in [db.py]: its four imports (lines 1
    to 4) and the class it defines. *)
Definition db_globals : list string :=
  ["boto3"; "os"; "ClientError"; "S3Bucket"; "Database"].

(** Reading a global name inside the module: a name that is not bound (and
    is no builtin) raises [NameError]. *)
Definition load_global (name : string) : M unit :=
  if existsb (String.eqb name) db_globals then ret tt
  else raise (NameError name).

(** [d[key]] on a dict *)
Definition subscript (d : item) (key : string) : M value :=
  match d !! key with
  | Some v => ret v
  | None => raise (KeyError key)
  end.

Module Database.

(** [_create_table] (lines 15 to 33) *)
Definition _create_table : M unit :=
  try_except_ClientError table_load
    (fun code _ =>
       if String.eqb code "ResourceNotFoundException" then
         dynamodb_create_table ;; waiter_wait
       else ret tt).

(** [get_item] (lines 35 to 41) *)
Definition get_item (item_id : value) : M (option item) :=
  try_except_ClientError
    (response <- table_get_item item_id ;;
     ret (response_get_Item response))
    (fun _ message => print message ;; ret None).

(** [put_item] (lines 43 to 48).  In line 46 the arguments of
    [self.s3.put_object] are evaluated from left to right: [item['id']],
    then [json.dumps(item)], whose first step reads the global [json]. *)
Definition put_item (it : item) : M unit :=
  try_except_ClientError
    (table_put_item it ;;
     key <- subscript it "id" ;;
     load_global "json" ;;
     S3Bucket.put_object key (json_dumps it))
    (fun _ message => print message).

(** [delete_item] (lines 50 to 55) *)
Definition delete_item (item_id : value) : M unit :=
  try_except_ClientError
    (table_delete_item item_id ;;
     S3Bucket.delete_object item_id)
    (fun _ message => print message).

End Database.

(** ** The read-back helpers of [tests/test_server.py] *)

(** [get_dynamodb_item] (lines 49 to 53): reads the table directly. *)
Definition get_dynamodb_item (item_id : value) : M (option item) :=
  response <- table_get_item item_id ;;
  ret (response_get_Item response).

(** [get_s3_object] (lines 41 to 47): reads the object and parses it; a
    missing key ([NoSuchKey]) gives [None]. *)
Definition get_s3_object (key : value) : M (option item) :=
  obj <- S3Bucket.get_object key ;;
  ret (json_loads <$> obj).

(** ** The request handler *)

(** Modelled from the spec: the class [RequestHandler] of [app/server.py],
    which the tests import and which is not among the sources.  The routes,
    status codes and bodies are those of the table in section 4.3 and of
    section 6 of the specification; the handler reaches the stores only
    through [Database.get_item], [Database.put_item] and
    [Database.delete_item].  A request the specification gives no route for
    is answered by [Unrouted]; an exception that leaves a [Database] method
    ends the request unhandled. *)
Module RequestHandler.

Inductive json_body : Type :=
| ErrorBody (error : string)
| MessageBody (message : string)
| ItemBody (i : item).

Inductive reply : Type :=
| Respond (status : nat) (body : json_body)
| Stopped
| Unrouted.

(** The rest of [s] after the prefix [p], when [s] starts with [p]. *)
Fixpoint strip_prefix (p s : string) : option string :=
  match p, s with
  | EmptyString, _ => Some s
  | String a p', String b s' =>
      if Ascii.eqb a b then strip_prefix p' s' else None
  | String _ _, EmptyString => None
  end.

Definition not_found : reply := Respond 404 (ErrorBody "Item not found").

(** [GET /item/{id}] and [GET /shutdown] *)
Definition do_GET (path : string) : M reply :=
  if String.eqb path "/shutdown" then ret Stopped
  else
    match strip_prefix "/item/" path with
    | Some item_id =>
        if String.eqb item_id "" then
          ret (Respond 400 (ErrorBody "Item ID not provided"))
        else
          found <- Database.get_item (VStr item_id) ;;
          match found with
          | Some it => ret (Respond 200 (ItemBody it))
          | None => ret not_found
          end
    | None => ret Unrouted
    end.

(** [POST /item], body: an item with [id] *)
Definition do_POST (path : string) (data : item) : M reply :=
  if String.eqb path "/item" then
    item_id <- subscript data "id" ;;
    found <- Database.get_item item_id ;;
    match found with
    | Some _ => ret (Respond 409 (ErrorBody "Item already exists"))
    | None =>
        Database.put_item data ;;
        ret (Respond 201 (MessageBody "Item created"))
    end
  else ret Unrouted.

(** [PUT /item], body: an item with [id] *)
Definition do_PUT (path : string) (data : item) : M reply :=
  if String.eqb path "/item" then
    item_id <- subscript data "id" ;;
    found <- Database.get_item item_id ;;
    match found with
    | None => ret not_found
    | Some _ =>
        Database.put_item data ;;
        ret (Respond 200 (MessageBody "Item updated"))
    end
  else ret Unrouted.

(** [DELETE /item/{id}] *)
Definition do_DELETE (path : string) : M reply :=
  match strip_prefix "/item/" path with
  | Some item_id =>
      found <- Database.get_item (VStr item_id) ;;
      match found with
      | None => ret not_found
      | Some _ =>
          Database.delete_item (VStr item_id) ;;
          ret (Respond 200 (MessageBody "Item deleted"))
      end
  | None => ret Unrouted
  end.

End RequestHandler.

(** ** Sample data: the item and the stores of [test_post_item] *)

Definition item_1 : item :=
  <["id" := VStr "1"]> (<["name" := VStr "Item 1"]> ∅).

(** The stores after [setUp]: the table exists and is empty, the bucket is
    empty, and the services are healthy. *)
Definition cleared : world :=
  {| table := Some ∅; bucket := ∅; stdout := []; calls := []; faults := [] |}.

(** The same stores while the table service throttles the next call. *)
Definition throttled : world :=
  {| table := Some ∅; bucket := ∅; stdout := []; calls := [];
     faults := [Some (ServiceError "ProvisionedThroughputExceededException"
                        "Rate of requests exceeds the allowed throughput")] |}.

(** The same stores while the next call is refused for lack of permission. *)
Definition denied : world :=
  {| table := Some ∅; bucket := ∅; stdout := []; calls := [];
     faults := [Some (ServiceError "AccessDeniedException"
                        "User is not authorized to perform this action")] |}.

(** The same stores while the service endpoint cannot be reached. *)
Definition unreachable : world :=
  {| table := Some ∅; bucket := ∅; stdout := []; calls := [];
     faults := [Some (TransportError "EndpointConnectionError")] |}.

(** Item 1 present in both stores. *)
Definition stored_1 : world :=
  {| table := Some (<["1" := item_1]> ∅);
     bucket := <["1" := json_dumps item_1]> ∅;
     stdout := []; calls := []; faults := [] |}.

(** Item 1 present in both stores while the table service answers the next
    call and the bucket service fails the one after it. *)
Definition blob_down : world :=
  {| table := Some (<["1" := item_1]> ∅);
     bucket := <["1" := json_dumps item_1]> ∅;
     stdout := []; calls := [];
     faults := [None; Some (ServiceError "ServiceUnavailable"
                              "Please reduce your request rate")] |}.

(** ** Observations on a world *)

(** The fault the next service call meets. *)
Definition next_fault (w : world) : option fault :=
  match faults w with
  | Some f :: _ => Some f
  | _ => None
  end.

(** No service call fails from here on. *)
Definition healthy (w : world) : Prop := Forall (eq None) (faults w).

(** The row of the table under key [k], and the object named [k]. *)
Definition row (k : string) (w : world) : option item := table w ≫= (.!! k).
Definition object (k : string) (w : world) : option payload := bucket w !! k.

(** The "not found" error of the existence check. *)
Definition is_not_found (e : exn) : bool :=
  match e with
  | ClientError code _ => String.eqb code "ResourceNotFoundException"
  | _ => false
  end.

Definition is_ClientError (e : exn) : bool :=
  match e with
  | ClientError _ _ => true
  | _ => false
  end.

(** ** The statements that are put to the test *)

(** [put_item] writes the table, then raises [NameError] with the bucket
    untouched. *)
Definition put_item_writes_then_NameError (it : item) (w : world) : Prop :=
  exists w' t k,
    Database.put_item it w = (Raise (NameError "json"), w') /\
    table w = Some t /\ it !! "id" = Some (VStr k) /\
    table w' = Some (<[k := it]> t) /\ bucket w' = bucket w.

(** An error of the existence check that is not "not found" leaves
    [_create_table]. *)
Definition existence_error_surfaced (w : world) : Prop :=
  forall e, fst (table_load w) = Raise e -> is_not_found e = false ->
            fst (Database._create_table w) = Raise e.

(** [get_item] ends by returning. *)
Definition get_item_returns (item_id : value) (w : world) : Prop :=
  exists found, fst (Database.get_item item_id w) = Return found.

(** ** Further worlds and the row invariant *)

(** Before first use: the table does not exist yet. *)
Definition no_table : world :=
  {| table := None; bucket := ∅; stdout := []; calls := []; faults := [] |}.

(** The table does not exist, the existence check is answered, and the
    creation that follows is refused by the service. *)
Definition create_refused : world :=
  {| table := None; bucket := ∅; stdout := []; calls := [];
     faults := [None; Some (ServiceError "LimitExceededException"
                              "Too many tables are being created")] |}.

(** Every row sits under the key that its own [id] field names: what the
    table's key schema makes of [put_item(Item=item)]. *)
Definition well_keyed (w : world) : Prop :=
  forall t k it, table w = Some t -> t !! k = Some it ->
                 it !! "id" = Some (VStr k).

(** ** Basic facts *)

Lemma request_eq (c : call) (w : world) :
  request c w =
  (match next_fault w with
   | Some f => Raise (exn_of_fault f)
   | None => Return tt
   end, record_call c w).
Proof.
  unfold request, next_fault.
  destruct (faults w) as [|[f|] fs]; reflexivity.
Qed.

Lemma healthy_next_fault (w : world) : healthy w -> next_fault w = None.
Proof.
  unfold healthy, next_fault. intros H.
  destruct (faults w) as [|[f|] fs]; try reflexivity.
  inversion H; discriminate.
Qed.

Lemma healthy_record_call (c : call) (w : world) :
  healthy w -> healthy (record_call c w).
Proof.
  unfold healthy. simpl. intros H.
  destruct (faults w); simpl; [constructor | inversion H; assumption].
Qed.

Lemma healthy_set_table t (w : world) : healthy w -> healthy (set_table t w).
Proof. exact id. Qed.

Lemma healthy_set_bucket b (w : world) : healthy w -> healthy (set_bucket b w).
Proof. exact id. Qed.

Lemma healthy_write_stdout s (w : world) : healthy w -> healthy (write_stdout s w).
Proof. exact id. Qed.

Create HintDb healthy.
#[local] Hint Resolve healthy_record_call healthy_set_table healthy_set_bucket
  healthy_write_stdout : healthy.

(** A call of a healthy world goes through. *)
Lemma request_healthy (c : call) (w : world) :
  healthy w -> request c w = (Return tt, record_call c w).
Proof. intros H. rewrite request_eq, (healthy_next_fault w H). reflexivity. Qed.

(** What each table operation does, by cases on the fault met, the
    existence of the table and the key. *)
Lemma table_get_item_eq (item_id : value) (w : world) :
  table_get_item item_id w =
  (match next_fault w with
   | Some f => Raise (exn_of_fault f)
   | None =>
       match table w with
       | None => Raise ResourceNotFound
       | Some t =>
           match key_of item_id with
           | Some k => Return (Response (t !! k))
           | None => Raise ValidationError
           end
       end
   end, record_call (TableGet item_id) w).
Proof.
  unfold table_get_item, bind. rewrite request_eq.
  destruct (next_fault w); [reflexivity|].
  unfold with_table, with_key. simpl.
  destruct (table w); [|reflexivity].
  destruct (key_of item_id); reflexivity.
Qed.

Lemma table_put_item_eq (it : item) (w : world) :
  table_put_item it w =
  match next_fault w with
  | Some f => (Raise (exn_of_fault f), record_call (TablePut it) w)
  | None =>
      match table w with
      | None => (Raise ResourceNotFound, record_call (TablePut it) w)
      | Some t =>
          match it !! "id" ≫= key_of with
          | Some k =>
              (Return tt,
               set_table (Some (<[k := it]> t)) (record_call (TablePut it) w))
          | None => (Raise ValidationError, record_call (TablePut it) w)
          end
      end
  end.
Proof.
  unfold table_put_item, bind. rewrite request_eq.
  destruct (next_fault w); [reflexivity|].
  unfold with_table, with_key. simpl.
  destruct (table w); [|reflexivity].
  destruct (it !! "id" ≫= key_of); reflexivity.
Qed.

Lemma table_delete_item_eq (item_id : value) (w : world) :
  table_delete_item item_id w =
  match next_fault w with
  | Some f => (Raise (exn_of_fault f), record_call (TableDelete item_id) w)
  | None =>
      match table w with
      | None => (Raise ResourceNotFound, record_call (TableDelete item_id) w)
      | Some t =>
          match key_of item_id with
          | Some k =>
              (Return tt,
               set_table (Some (delete k t)) (record_call (TableDelete item_id) w))
          | None => (Raise ValidationError, record_call (TableDelete item_id) w)
          end
      end
  end.
Proof.
  unfold table_delete_item, bind. rewrite request_eq.
  destruct (next_fault w); [reflexivity|].
  unfold with_table, with_key. simpl.
  destruct (table w); [|reflexivity].
  destruct (key_of item_id); reflexivity.
Qed.

Lemma delete_object_eq (key : value) (w : world) :
  S3Bucket.delete_object key w =
  match next_fault w with
  | Some f => (Raise (exn_of_fault f), record_call (BlobDelete key) w)
  | None =>
      match key_of key with
      | Some k =>
          (Return tt,
           set_bucket (delete k (bucket w)) (record_call (BlobDelete key) w))
      | None =>
          (Raise (BotoCoreError "ParamValidationError"),
           record_call (BlobDelete key) w)
      end
  end.
Proof.
  unfold S3Bucket.delete_object, bind. rewrite request_eq.
  destruct (next_fault w); [reflexivity|].
  unfold S3Bucket.with_name. destruct (key_of key); reflexivity.
Qed.

Lemma get_object_eq (key : value) (w : world) :
  S3Bucket.get_object key w =
  (match next_fault w with
   | Some f => Raise (exn_of_fault f)
   | None =>
       match key_of key with
       | Some k => Return (bucket w !! k)
       | None => Raise (BotoCoreError "ParamValidationError")
       end
   end, record_call (BlobGet key) w).
Proof.
  unfold S3Bucket.get_object, bind. rewrite request_eq.
  destruct (next_fault w); [reflexivity|].
  unfold S3Bucket.with_name. destruct (key_of key); reflexivity.
Qed.

(** A table operation leaves the bucket alone, whatever its outcome. *)
Lemma table_put_item_bucket (it : item) (w : world) :
  bucket (snd (table_put_item it w)) = bucket w.
Proof.
  rewrite table_put_item_eq.
  destruct (next_fault w); [reflexivity|].
  destruct (table w); [|reflexivity].
  destruct (it !! "id" ≫= key_of); reflexivity.
Qed.

(** A table write that raises has written nothing. *)
Lemma table_put_item_Raise (it : item) (w w1 : world) (e : exn) :
  table_put_item it w = (Raise e, w1) -> table w1 = table w.
Proof.
  rewrite table_put_item_eq.
  destruct (next_fault w); [intros [= _ <-]; reflexivity|].
  destruct (table w) eqn:Ht; [|intros [= _ <-]; exact Ht].
  destruct (it !! "id" ≫= key_of); [discriminate|].
  intros [= _ <-]. exact Ht.
Qed.

(** A table write that returns has stored the item under its [id]. *)
Lemma table_put_item_Return (it : item) (w w1 : world) :
  table_put_item it w = (Return tt, w1) ->
  exists t k, table w = Some t /\ it !! "id" = Some (VStr k) /\
              table w1 = Some (<[k := it]> t).
Proof.
  rewrite table_put_item_eq.
  destruct (next_fault w); [discriminate|].
  destruct (table w) as [t|]; [|discriminate].
  destruct (it !! "id") as [v|] eqn:Hid; simpl; [|discriminate].
  destruct v; simpl; try discriminate.
  intros [= <-]. exists t, s. auto.
Qed.

(** ** Creating an item *)

(** C1 (the code departs from it).  [test_post_item] on the cleared stores:
    [put_item] of the item [{"id": "1", "name": "Item 1"}] ends in
    [NameError: json]; fetching id ["1"] afterwards gives the item back from
    the table, through [get_item] and through the test's direct read, but
    the bucket holds no object ["1"]: the mirrored copy was never written. *)
Theorem put_item_then_fetch_blob_copy_missing :
  fst (Database.put_item item_1 cleared) = Raise (NameError "json") /\
  fst (Database.get_item (VStr "1") (snd (Database.put_item item_1 cleared)))
    = Return (Some item_1) /\
  fst (get_dynamodb_item (VStr "1") (snd (Database.put_item item_1 cleared)))
    = Return (Some item_1) /\
  fst (get_s3_object (VStr "1") (snd (Database.put_item item_1 cleared)))
    = Return None.
Proof. repeat split; vm_compute; reflexivity. Qed.

(** The second statement of [put_item]'s body never gets past reading the
    global [json]. *)
Lemma put_item_eq (it : item) (w : world) :
  Database.put_item it w =
  match table_put_item it w with
  | (Return _, w1) => (Raise (NameError "json"), w1)
  | (Raise (ClientError _ message), w1) => (Return tt, write_stdout message w1)
  | (Raise e, w1) => (Raise e, w1)
  end.
Proof.
  unfold Database.put_item, try_except_ClientError, bind.
  destruct (table_put_item it w) as [[[]|e] w1] eqn:Hput.
  - destruct (table_put_item_Return it w w1 Hput) as (t & k & _ & Hid & _).
    unfold subscript. rewrite Hid. reflexivity.
  - destruct e; reflexivity.
Qed.

(** C2 (counterexample).  When the table service answers the write with an
    error response, [put_item] prints the message and returns: no
    [NameError], and the table is as before.  The same happens in a healthy
    world for an item that has no [id], which the table rejects. *)
Lemma put_item_throttled_returns :
  fst (Database.put_item item_1 throttled) = Return tt /\
  table (snd (Database.put_item item_1 throttled)) = table throttled /\
  ~ put_item_writes_then_NameError item_1 throttled /\
  fst (Database.put_item (<["name" := VStr "Item 1"]> ∅) cleared) = Return tt /\
  table (snd (Database.put_item (<["name" := VStr "Item 1"]> ∅) cleared))
    = table cleared.
Proof.
  split; [vm_compute; reflexivity|].
  split; [vm_compute; reflexivity|].
  split; [|split; vm_compute; reflexivity].
  intros (w' & t & k & H & _). vm_compute in H. discriminate H.
Qed.

(** C2 (amended).  Whatever the table write did, [put_item] leaves the
    bucket as it was.  When the table write went through, [put_item] ends in
    [NameError: json] with the item stored in the table; when it raised a
    [ClientError], [put_item] prints the message and returns; when it raised
    anything else, that exception leaves [put_item]; in both failing cases
    the table is unchanged. *)
Theorem put_item_table_write_then_NameError
    (it : item) (w w1 : world) (r : result unit) :
  table_put_item it w = (r, w1) ->
  bucket (snd (Database.put_item it w)) = bucket w /\
  match r with
  | Return _ =>
      Database.put_item it w = (Raise (NameError "json"), w1) /\
      exists t k, table w = Some t /\ it !! "id" = Some (VStr k) /\
                  table w1 = Some (<[k := it]> t)
  | Raise (ClientError code message) =>
      Database.put_item it w = (Return tt, write_stdout message w1) /\
      table w1 = table w
  | Raise e =>
      Database.put_item it w = (Raise e, w1) /\ table w1 = table w
  end.
Proof.
  intros Hput. rewrite put_item_eq, Hput.
  assert (Hb : bucket w1 = bucket w).
  { pose proof (table_put_item_bucket it w) as H. rewrite Hput in H. exact H. }
  destruct r as [[]|e].
  - split; [exact Hb|]. split; [reflexivity|].
    exact (table_put_item_Return it w w1 Hput).
  - pose proof (table_put_item_Raise it w w1 e Hput) as Ht.
    destruct e; simpl; auto.
Qed.

Lemma put_item_table_write_then_NameError_witness :
  Database.put_item item_1 cleared
    = (Raise (NameError "json"), snd (table_put_item item_1 cleared)) /\
  table (snd (table_put_item item_1 cleared)) = Some (<["1" := item_1]> ∅).
Proof.
  pose proof (put_item_table_write_then_NameError item_1 cleared
                (snd (table_put_item item_1 cleared)) (Return tt)
                ltac:(vm_compute; reflexivity)) as [_ [H _]].
  split; [exact H | vm_compute; reflexivity].
Defined.

(** ** Initialisation *)

Lemma create_table_eq (w : world) :
  Database._create_table w =
  match table_load w with
  | (Raise (ClientError code _), w1) =>
      if String.eqb code "ResourceNotFoundException"
      then bind dynamodb_create_table (fun _ => waiter_wait) w1
      else (Return tt, w1)
  | other => other
  end.
Proof.
  unfold Database._create_table, try_except_ClientError.
  destruct (table_load w) as [[[]|e] w1]; [reflexivity|].
  destruct e as [code message| | |]; try reflexivity.
  destruct (String.eqb code "ResourceNotFoundException"); reflexivity.
Qed.

(** On first use the table does not exist: the check raises "not found",
    and the table is created and waited for. *)
Example create_table_when_absent :
  Database._create_table
    {| table := None; bucket := ∅; stdout := []; calls := []; faults := [] |}
  = (Return tt,
     {| table := Some ∅; bucket := ∅; stdout := [];
        calls := [TableLoad; TableCreate; TableWait]; faults := [] |}).
Proof. reflexivity. Qed.

(** When the table exists, the check is all that happens. *)
Example create_table_when_present :
  Database._create_table cleared
  = (Return tt,
     {| table := Some ∅; bucket := ∅; stdout := [];
        calls := [TableLoad]; faults := [] |}).
Proof. reflexivity. Qed.

(** C3 (counterexample).  The existence check is refused with
    [AccessDeniedException], which is not "not found"; [_create_table]
    returns normally all the same, and no table was created or waited
    for. *)
Lemma create_table_swallows_access_denied :
  fst (table_load denied)
    = Raise (ClientError "AccessDeniedException"
               "User is not authorized to perform this action") /\
  fst (Database._create_table denied) = Return tt /\
  calls (snd (Database._create_table denied)) = [TableLoad] /\
  ~ existence_error_surfaced denied.
Proof.
  split; [vm_compute; reflexivity|].
  split; [vm_compute; reflexivity|].
  split; [vm_compute; reflexivity|].
  intros H.
  specialize (H (ClientError "AccessDeniedException"
                   "User is not authorized to perform this action")).
  vm_compute in H. specialize (H eq_refl eq_refl). discriminate H.
Qed.

(** C3 (amended).  An error of the existence check that is not "not found"
    is surfaced when it is not a [ClientError]; when it is a [ClientError]
    (with a code other than [ResourceNotFoundException]) it is caught and
    [_create_table] returns normally, having done nothing more. *)
Theorem create_table_surfaces_other_than_ClientError
    (w w1 : world) (e : exn) :
  table_load w = (Raise e, w1) ->
  is_not_found e = false ->
  Database._create_table w =
  (if is_ClientError e then Return tt else Raise e, w1).
Proof.
  intros Hload Hnf. rewrite create_table_eq, Hload.
  destruct e; simpl in *; try reflexivity.
  rewrite Hnf. reflexivity.
Qed.

Lemma create_table_surfaces_other_than_ClientError_witness :
  Database._create_table unreachable
    = (Raise (BotoCoreError "EndpointConnectionError"),
       snd (table_load unreachable)) /\
  Database._create_table denied = (Return tt, snd (table_load denied)).
Proof.
  split.
  - exact (create_table_surfaces_other_than_ClientError unreachable
             (snd (table_load unreachable))
             (BotoCoreError "EndpointConnectionError")
             ltac:(vm_compute; reflexivity) eq_refl).
  - exact (create_table_surfaces_other_than_ClientError denied
             (snd (table_load denied))
             (ClientError "AccessDeniedException"
                "User is not authorized to perform this action")
             ltac:(vm_compute; reflexivity) eq_refl).
Defined.

(** ** Looking an item up *)

Lemma get_item_eq (item_id : value) (w : world) :
  Database.get_item item_id w =
  match table_get_item item_id w with
  | (Return response, w1) => (Return (Item response), w1)
  | (Raise (ClientError _ message), w1) => (Return None, write_stdout message w1)
  | (Raise e, w1) => (Raise e, w1)
  end.
Proof.
  unfold Database.get_item, try_except_ClientError, bind.
  destruct (table_get_item item_id w) as [[resp|e] w1]; [reflexivity|].
  destruct e; reflexivity.
Qed.

(** A lookup touches neither store. *)
Lemma get_item_stores (item_id : value) (w : world) :
  table (snd (Database.get_item item_id w)) = table w /\
  bucket (snd (Database.get_item item_id w)) = bucket w.
Proof.
  rewrite get_item_eq, table_get_item_eq.
  destruct (next_fault w) as [[c m|n]|]; simpl; auto.
  destruct (table w) eqn:Ht; simpl; auto.
  destruct (key_of item_id); simpl; auto.
Qed.

(** The lookup of a healthy world whose table exists. *)
Lemma get_item_healthy (k : string) (w : world) (t : gmap string item) :
  healthy w -> table w = Some t ->
  Database.get_item (VStr k) w = (Return (t !! k), record_call (TableGet (VStr k)) w).
Proof.
  intros Hh Ht.
  rewrite get_item_eq, table_get_item_eq, (healthy_next_fault w Hh), Ht.
  reflexivity.
Qed.

(** C4 (counterexample).  The endpoint cannot be reached: the table call
    raises an exception that is not a [ClientError], and it leaves
    [get_item]. *)
Lemma get_item_raises_when_unreachable :
  fst (Database.get_item (VStr "1") unreachable)
    = Raise (BotoCoreError "EndpointConnectionError") /\
  ~ get_item_returns (VStr "1") unreachable.
Proof.
  split; [vm_compute; reflexivity|].
  intros [found H]. vm_compute in H. discriminate H.
Qed.

(** C4 (amended).  [get_item] never raises a [ClientError].  When the table
    call answers, [get_item] returns the row, [None] when there is none;
    when the table call raises a [ClientError], [get_item] prints its
    message and returns [None] as well, the same result as for a missing
    row; an exception of any other class leaves [get_item]. *)
Theorem get_item_masks_ClientError
    (item_id : value) (w w1 : world) (r : result response) :
  table_get_item item_id w = (r, w1) ->
  (forall code message,
     fst (Database.get_item item_id w) <> Raise (ClientError code message)) /\
  match r with
  | Return response =>
      Database.get_item item_id w = (Return (Item response), w1) /\
      forall t k, table w = Some t -> item_id = VStr k ->
                  Item response = t !! k
  | Raise (ClientError _ message) =>
      Database.get_item item_id w = (Return None, write_stdout message w1)
  | Raise e => Database.get_item item_id w = (Raise e, w1)
  end.
Proof.
  intros Hget. rewrite get_item_eq, Hget. split.
  - intros code message. destruct r as [resp|[]]; discriminate.
  - destruct r as [resp|e].
    + split; [reflexivity|]. intros t k Ht ->.
      rewrite table_get_item_eq, Ht in Hget.
      destruct (next_fault w); [discriminate|].
      simpl in Hget. injection Hget as <- _. reflexivity.
    + destruct e; reflexivity.
Qed.

Lemma get_item_masks_ClientError_witness :
  fst (Database.get_item (VStr "1") cleared) = Return None /\
  fst (Database.get_item (VStr "1") throttled) = Return None /\
  fst (Database.get_item (VStr "1") stored_1) = Return (Some item_1).
Proof.
  pose proof (get_item_masks_ClientError (VStr "1") cleared
                (snd (table_get_item (VStr "1") cleared))
                (Return (Response None)) ltac:(vm_compute; reflexivity))
    as [_ [H1 _]].
  pose proof (get_item_masks_ClientError (VStr "1") throttled
                (snd (table_get_item (VStr "1") throttled))
                (Raise (ClientError "ProvisionedThroughputExceededException"
                          "Rate of requests exceeds the allowed throughput"))
                ltac:(vm_compute; reflexivity)) as [_ H2].
  pose proof (get_item_masks_ClientError (VStr "1") stored_1
                (snd (table_get_item (VStr "1") stored_1))
                (Return (Response (Some item_1))) ltac:(vm_compute; reflexivity))
    as [_ [H3 _]].
  rewrite H1, H2, H3. repeat split.
Defined.

(** ** Deleting an item *)

Lemma delete_item_eq (item_id : value) (w : world) :
  Database.delete_item item_id w =
  match table_delete_item item_id w with
  | (Return _, w1) =>
      match S3Bucket.delete_object item_id w1 with
      | (Raise (ClientError _ message), w2) => (Return tt, write_stdout message w2)
      | other => other
      end
  | (Raise (ClientError _ message), w1) => (Return tt, write_stdout message w1)
  | (Raise e, w1) => (Raise e, w1)
  end.
Proof.
  unfold Database.delete_item, try_except_ClientError, bind.
  destruct (table_delete_item item_id w) as [[[]|e] w1].
  - reflexivity.
  - destruct e; reflexivity.
Qed.

(** A bucket operation leaves the table alone and adds one call. *)
Lemma delete_object_table_calls (key : value) (w : world) :
  table (snd (S3Bucket.delete_object key w)) = table w /\
  calls (snd (S3Bucket.delete_object key w)) = calls w ++ [BlobDelete key].
Proof.
  rewrite delete_object_eq.
  destruct (next_fault w); [split; reflexivity|].
  destruct (key_of key); split; reflexivity.
Qed.

Lemma table_put_item_calls (it : item) (w : world) :
  calls (snd (table_put_item it w)) = calls w ++ [TablePut it].
Proof.
  rewrite table_put_item_eq.
  destruct (next_fault w); [reflexivity|].
  destruct (table w); [|reflexivity].
  destruct (it !! "id" ≫= key_of); reflexivity.
Qed.

Lemma table_delete_item_calls (item_id : value) (w : world) :
  calls (snd (table_delete_item item_id w)) = calls w ++ [TableDelete item_id].
Proof.
  rewrite table_delete_item_eq.
  destruct (next_fault w); [reflexivity|].
  destruct (table w); [|reflexivity].
  destruct (key_of item_id); reflexivity.
Qed.

(** C5 (the code departs from it).  A write never gets as far as its
    bucket operation.  On the input of [test_post_item], [put_item] makes
    the table call and ends in [NameError: json]: the trace holds the table
    call and no bucket call, where [delete_item], the sibling path, calls
    the table and then the bucket.  This is so for every item and every
    world: the only call [put_item] ever makes is the table write. *)
Theorem put_item_bucket_write_never_attempted :
  fst (Database.put_item item_1 cleared) = Raise (NameError "json") /\
  calls (snd (Database.put_item item_1 cleared)) = [TablePut item_1] /\
  calls (snd (Database.delete_item (VStr "1") stored_1))
    = [TableDelete (VStr "1"); BlobDelete (VStr "1")] /\
  forall (it : item) (w : world),
    calls (snd (Database.put_item it w)) = calls w ++ [TablePut it].
Proof.
  split; [vm_compute; reflexivity|].
  split; [vm_compute; reflexivity|].
  split; [vm_compute; reflexivity|].
  intros it w. pose proof (table_put_item_calls it w) as Hc.
  rewrite put_item_eq.
  destruct (table_put_item it w) as [[[]|[]] w1]; exact Hc.
Qed.

(** X19.  The order of the calls and the absence of a rollback.  In
    [delete_item] the table call is the first call made and the bucket call
    the second, made exactly when the table call returned; [put_item] makes
    the table call and no other.  After either method the table is exactly
    as the table call left it, whatever the second step did: nothing is
    rolled back. *)
Theorem table_first_blob_second_no_rollback
    (it : item) (item_id : value) (w wp wd : world) (rp rd : result unit) :
  table_put_item it w = (rp, wp) ->
  table_delete_item item_id w = (rd, wd) ->
  (calls (snd (Database.put_item it w)) = calls w ++ [TablePut it] /\
   table (snd (Database.put_item it w)) = table wp) /\
  (calls (snd (Database.delete_item item_id w))
     = calls w ++ TableDelete item_id ::
         match rd with Return _ => [BlobDelete item_id] | Raise _ => [] end /\
   table (snd (Database.delete_item item_id w)) = table wd).
Proof.
  intros Hput Hdel. split.
  - pose proof (table_put_item_calls it w) as Hc.
    rewrite put_item_eq. rewrite Hput in *. simpl in Hc.
    destruct rp as [[]|[]]; simpl; auto.
  - pose proof (table_delete_item_calls item_id w) as Hc.
    rewrite delete_item_eq. rewrite Hdel in *. simpl in Hc.
    destruct rd as [[]|e].
    + destruct (delete_object_table_calls item_id wd) as [Ht Hb].
      rewrite Hc, <- app_assoc in Hb. simpl in Hb.
      destruct (S3Bucket.delete_object item_id wd) as [[[]|e] w2]; simpl in *;
        [auto|destruct e; simpl; auto].
    + destruct e; simpl; auto.
Qed.

Lemma table_first_blob_second_no_rollback_witness :
  row "1" (snd (Database.put_item item_1 cleared)) = Some item_1 /\
  object "1" (snd (Database.put_item item_1 cleared)) = None /\
  row "1" (snd (Database.delete_item (VStr "1") blob_down)) = None /\
  object "1" (snd (Database.delete_item (VStr "1") blob_down))
    = Some (json_dumps item_1) /\
  calls (snd (Database.delete_item (VStr "1") blob_down))
    = [TableDelete (VStr "1"); BlobDelete (VStr "1")].
Proof.
  pose proof (table_first_blob_second_no_rollback item_1 (VStr "1") cleared
                (snd (table_put_item item_1 cleared))
                (snd (table_delete_item (VStr "1") cleared))
                (Return tt) (Return tt)
                ltac:(vm_compute; reflexivity) ltac:(vm_compute; reflexivity))
    as [[_ Hp] _].
  pose proof (table_first_blob_second_no_rollback item_1 (VStr "1") blob_down
                (snd (table_put_item item_1 blob_down))
                (snd (table_delete_item (VStr "1") blob_down))
                (Return tt) (Return tt)
                ltac:(vm_compute; reflexivity) ltac:(vm_compute; reflexivity))
    as [_ [Hc Hd]].
  unfold row. rewrite Hp, Hd.
  split; [vm_compute; reflexivity|].
  split; [vm_compute; reflexivity|].
  split; [vm_compute; reflexivity|].
  split; [vm_compute; reflexivity|].
  exact Hc.
Defined.

(** [delete_item] in a healthy world: it returns, the world stays healthy,
    and the key (when it is one) is gone from the table, and from the bucket
    too when the table exists. *)
Lemma delete_item_healthy (item_id : value) (w : world) :
  healthy w ->
  fst (Database.delete_item item_id w) = Return tt /\
  healthy (snd (Database.delete_item item_id w)) /\
  table (snd (Database.delete_item item_id w))
    = match key_of item_id with
      | Some k => delete k <$> table w
      | None => table w
      end /\
  bucket (snd (Database.delete_item item_id w))
    = match table w, key_of item_id with
      | Some _, Some k => delete k (bucket w)
      | _, _ => bucket w
      end.
Proof.
  intros Hh.
  rewrite delete_item_eq, table_delete_item_eq, (healthy_next_fault w Hh).
  destruct (table w) as [t|] eqn:Ht.
  - destruct (key_of item_id) as [k|] eqn:Hk.
    + rewrite delete_object_eq, Hk.
      rewrite healthy_next_fault by auto with healthy.
      simpl. auto 10 with healthy.
    + simpl. rewrite Ht. auto 10 with healthy.
  - simpl. rewrite Ht. destruct (key_of item_id); auto 10 with healthy.
Qed.

(** C6.  In a healthy world, for an id that has a row in the table and an
    object in the bucket, [delete_item] returns and removes both; fetching
    the id afterwards gives absent from the table ([get_item] and the test's
    direct read) and from the bucket (the client's [get_object] and the
    test's read). *)
Theorem delete_item_removes_both
    (k : string) (w : world) (it : item) (body : payload) :
  healthy w ->
  row k w = Some it ->
  object k w = Some body ->
  fst (Database.delete_item (VStr k) w) = Return tt /\
  row k (snd (Database.delete_item (VStr k) w)) = None /\
  object k (snd (Database.delete_item (VStr k) w)) = None /\
  fst (Database.get_item (VStr k) (snd (Database.delete_item (VStr k) w)))
    = Return None /\
  fst (get_dynamodb_item (VStr k) (snd (Database.delete_item (VStr k) w)))
    = Return None /\
  fst (S3Bucket.get_object (VStr k) (snd (Database.delete_item (VStr k) w)))
    = Return None /\
  fst (get_s3_object (VStr k) (snd (Database.delete_item (VStr k) w)))
    = Return None.
Proof.
  intros Hh Hrow _.
  destruct (delete_item_healthy (VStr k) w Hh) as (Hr & Hh' & Ht & Hb).
  unfold row in Hrow. destruct (table w) as [t|] eqn:Htw; [|discriminate].
  simpl in Ht, Hb.
  set (w' := snd (Database.delete_item (VStr k) w)) in *.
  assert (Hrow' : row k w' = None).
  { unfold row. rewrite Ht. simpl. apply lookup_delete_eq. }
  assert (Hobj' : object k w' = None).
  { unfold object. rewrite Hb. apply lookup_delete_eq. }
  assert (Hget : table_get_item (VStr k) w'
                 = (Return (Response None), record_call (TableGet (VStr k)) w')).
  { rewrite table_get_item_eq, (healthy_next_fault w' Hh'), Ht. simpl.
    rewrite lookup_delete_eq. reflexivity. }
  assert (Hobj : S3Bucket.get_object (VStr k) w'
                 = (Return None, record_call (BlobGet (VStr k)) w')).
  { rewrite get_object_eq, (healthy_next_fault w' Hh'). simpl.
    unfold object in Hobj'. rewrite Hobj'. reflexivity. }
  repeat split; try assumption.
  - rewrite get_item_eq, Hget. reflexivity.
  - unfold get_dynamodb_item, bind. rewrite Hget. reflexivity.
  - rewrite Hobj. reflexivity.
  - unfold get_s3_object, bind. rewrite Hobj. reflexivity.
Qed.

Lemma delete_item_removes_both_witness :
  healthy stored_1 /\
  row "1" stored_1 = Some item_1 /\
  fst (Database.get_item (VStr "1")
         (snd (Database.delete_item (VStr "1") stored_1))) = Return None /\
  fst (get_s3_object (VStr "1")
         (snd (Database.delete_item (VStr "1") stored_1))) = Return None.
Proof.
  assert (Hh : healthy stored_1) by constructor.
  assert (Hr : row "1" stored_1 = Some item_1) by (vm_compute; reflexivity).
  pose proof (delete_item_removes_both "1" stored_1 item_1 (json_dumps item_1)
                Hh Hr ltac:(vm_compute; reflexivity))
    as (_ & _ & _ & Hg & _ & _ & Hs).
  auto.
Defined.

(** C9.  In a healthy world: (a) [delete_item] of an id that has neither a
    row nor an object returns without an exception and leaves both stores
    as they were; (b) for every id, a second [delete_item] right after the
    first returns as well and leaves both stores as the first left them;
    (c) at the HTTP layer, [DELETE /item/k] of a stored item answers 200 and
    the same request repeated answers 404 "Item not found". *)
Theorem delete_item_idempotent (item_id : value) (k : string) (w : world) :
  healthy w ->
  (row k w = None -> object k w = None ->
   fst (Database.delete_item (VStr k) w) = Return tt /\
   table (snd (Database.delete_item (VStr k) w)) = table w /\
   bucket (snd (Database.delete_item (VStr k) w)) = bucket w) /\
  (fst (Database.delete_item item_id w) = Return tt /\
   fst (Database.delete_item item_id (snd (Database.delete_item item_id w)))
     = Return tt /\
   table (snd (Database.delete_item item_id (snd (Database.delete_item item_id w))))
     = table (snd (Database.delete_item item_id w)) /\
   bucket (snd (Database.delete_item item_id (snd (Database.delete_item item_id w))))
     = bucket (snd (Database.delete_item item_id w))) /\
  (forall it, row k w = Some it ->
   fst (RequestHandler.do_DELETE (String.append "/item/" k) w)
     = Return (RequestHandler.Respond 200 (RequestHandler.MessageBody "Item deleted")) /\
   fst (RequestHandler.do_DELETE (String.append "/item/" k)
          (snd (RequestHandler.do_DELETE (String.append "/item/" k) w)))
     = Return (RequestHandler.Respond 404 (RequestHandler.ErrorBody "Item not found"))).
Proof.
  intros Hh. split; [|split].
  - intros Hrow Hobj.
    destruct (delete_item_healthy (VStr k) w Hh) as (Hr & _ & Ht & Hb).
    simpl in Ht, Hb. unfold row, object in *.
    split; [exact Hr|]. rewrite Ht, Hb.
    destruct (table w) as [t|]; simpl in *.
    + rewrite (delete_id t k Hrow), (delete_id (bucket w) k Hobj). auto.
    + auto.
  - destruct (delete_item_healthy item_id w Hh) as (Hr & Hh1 & Ht & Hb).
    set (w1 := snd (Database.delete_item item_id w)) in *.
    destruct (delete_item_healthy item_id w1 Hh1) as (Hr2 & _ & Ht2 & Hb2).
    split; [exact Hr|]. split; [exact Hr2|].
    rewrite Ht2, Hb2, Ht, Hb.
    destruct (key_of item_id) as [k'|]; [|destruct (table w); auto].
    destruct (table w) as [t|]; simpl; [|auto].
    rewrite !delete_delete_eq. auto.
  - intros it Hrow. unfold row in Hrow.
    destruct (table w) as [t|] eqn:Htw; [|discriminate]. simpl in Hrow.
    assert (Hpre : RequestHandler.strip_prefix "/item/" (String.append "/item/" k)
                   = Some k) by reflexivity.
    destruct (delete_item_healthy (VStr k)
                (record_call (TableGet (VStr k)) w)
                (healthy_record_call _ w Hh)) as (Hr & Hh1 & Ht & _).
    simpl in Ht. rewrite Htw in Ht. simpl in Ht.
    set (w1 := snd (Database.delete_item (VStr k)
                      (record_call (TableGet (VStr k)) w))) in *.
    assert (H1 : RequestHandler.do_DELETE (String.append "/item/" k) w
                 = (Return (RequestHandler.Respond 200
                              (RequestHandler.MessageBody "Item deleted")), w1)).
    { unfold RequestHandler.do_DELETE. rewrite Hpre. unfold bind.
      rewrite (get_item_healthy k w t Hh Htw), Hrow.
      destruct (Database.delete_item (VStr k) (record_call (TableGet (VStr k)) w))
        as [r w'] eqn:Hd.
      simpl in Hr. subst r. reflexivity. }
    rewrite H1. split; [reflexivity|]. simpl.
    unfold RequestHandler.do_DELETE. rewrite Hpre. unfold bind.
    rewrite (get_item_healthy k w1 _ Hh1 Ht), lookup_delete_eq. reflexivity.
Qed.

Lemma delete_item_idempotent_witness :
  healthy stored_1 /\
  fst (RequestHandler.do_DELETE "/item/1" stored_1)
    = Return (RequestHandler.Respond 200 (RequestHandler.MessageBody "Item deleted")) /\
  fst (RequestHandler.do_DELETE "/item/1"
         (snd (RequestHandler.do_DELETE "/item/1" stored_1)))
    = Return (RequestHandler.Respond 404 (RequestHandler.ErrorBody "Item not found")) /\
  table (snd (Database.delete_item (VStr "nonexistent") stored_1))
    = table stored_1.
Proof.
  assert (Hh : healthy stored_1) by constructor.
  pose proof (delete_item_idempotent (VStr "1") "1" stored_1 Hh)
    as (_ & _ & Hc).
  pose proof (delete_item_idempotent (VStr "1") "nonexistent" stored_1 Hh)
    as (Ha & _ & _).
  destruct (Hc item_1 ltac:(vm_compute; reflexivity)) as [H200 H404].
  destruct (Ha ltac:(vm_compute; reflexivity) ltac:(vm_compute; reflexivity))
    as (_ & Ht & _).
  auto.
Defined.

(** ** The HTTP routes *)

(** C7.  In a healthy world, [POST /item] with an item whose [id] already
    has a row answers 409 with the body [{"error": "Item already exists"}];
    the only call made is the lookup, and the table and the bucket are as
    before. *)
Theorem post_existing_id_conflict
    (data : item) (k : string) (w : world) (old : item) :
  healthy w ->
  data !! "id" = Some (VStr k) ->
  row k w = Some old ->
  fst (RequestHandler.do_POST "/item" data w)
    = Return (RequestHandler.Respond 409
                (RequestHandler.ErrorBody "Item already exists")) /\
  table (snd (RequestHandler.do_POST "/item" data w)) = table w /\
  bucket (snd (RequestHandler.do_POST "/item" data w)) = bucket w /\
  calls (snd (RequestHandler.do_POST "/item" data w))
    = calls w ++ [TableGet (VStr k)].
Proof.
  intros Hh Hid Hrow. unfold row in Hrow.
  destruct (table w) as [t|] eqn:Ht; [|discriminate]. simpl in Hrow.
  unfold RequestHandler.do_POST. simpl. unfold bind, subscript.
  rewrite Hid. simpl.
  rewrite (get_item_healthy k w t Hh Ht), Hrow. simpl. auto.
Qed.

Lemma post_existing_id_conflict_witness :
  healthy stored_1 /\
  fst (RequestHandler.do_POST "/item" item_1 stored_1)
    = Return (RequestHandler.Respond 409
                (RequestHandler.ErrorBody "Item already exists")) /\
  table (snd (RequestHandler.do_POST "/item" item_1 stored_1)) = table stored_1 /\
  bucket (snd (RequestHandler.do_POST "/item" item_1 stored_1)) = bucket stored_1.
Proof.
  assert (Hh : healthy stored_1) by constructor.
  pose proof (post_existing_id_conflict item_1 "1" stored_1 item_1 Hh
                ltac:(vm_compute; reflexivity) ltac:(vm_compute; reflexivity))
    as (H409 & Ht & Hb & _).
  auto.
Defined.

(** C8.  [PUT /item] with an item whose [id] has no row answers 404 with
    the body [{"error": "Item not found"}], and the table and the bucket are
    as before: nothing is created.  This holds whenever the lookup does not
    end in an exception of its own, that is unless the table call fails
    below the service protocol. *)
Theorem put_missing_id_not_found (data : item) (k : string) (w : world) :
  (forall name, next_fault w <> Some (TransportError name)) ->
  data !! "id" = Some (VStr k) ->
  row k w = None ->
  fst (RequestHandler.do_PUT "/item" data w)
    = Return (RequestHandler.Respond 404
                (RequestHandler.ErrorBody "Item not found")) /\
  table (snd (RequestHandler.do_PUT "/item" data w)) = table w /\
  bucket (snd (RequestHandler.do_PUT "/item" data w)) = bucket w /\
  calls (snd (RequestHandler.do_PUT "/item" data w))
    = calls w ++ [TableGet (VStr k)].
Proof.
  intros Hf Hid Hrow. unfold row in Hrow.
  unfold RequestHandler.do_PUT. simpl. unfold bind, subscript.
  rewrite Hid. simpl.
  rewrite get_item_eq, table_get_item_eq.
  destruct (next_fault w) as [[code message|name]|].
  - simpl. auto.
  - destruct (Hf name eq_refl).
  - destruct (table w) as [t|] eqn:Ht; simpl in *.
    + rewrite Hrow. simpl. auto.
    + rewrite Ht. auto.
Qed.

Lemma put_missing_id_not_found_witness :
  fst (RequestHandler.do_PUT "/item"
         (<["id" := VStr "nonexistent"]> item_1) stored_1)
    = Return (RequestHandler.Respond 404
                (RequestHandler.ErrorBody "Item not found")) /\
  table (snd (RequestHandler.do_PUT "/item"
                (<["id" := VStr "nonexistent"]> item_1) stored_1))
    = table stored_1 /\
  bucket (snd (RequestHandler.do_PUT "/item"
                 (<["id" := VStr "nonexistent"]> item_1) stored_1))
    = bucket stored_1.
Proof.
  pose proof (put_missing_id_not_found
                (<["id" := VStr "nonexistent"]> item_1) "nonexistent" stored_1
                ltac:(intros name H; vm_compute in H; discriminate H)
                ltac:(vm_compute; reflexivity) ltac:(vm_compute; reflexivity))
    as (H404 & Ht & Hb & _).
  auto.
Defined.

(** C10.  [GET /item/], with nothing after the last slash, answers 400 with
    the body [{"error": "Item ID not provided"}] and leaves the world as it
    was: no call to a store is made, in whatever state the services are. *)
Theorem get_empty_id_bad_request (w : world) :
  RequestHandler.do_GET "/item/" w
    = (Return (RequestHandler.Respond 400
                 (RequestHandler.ErrorBody "Item ID not provided")), w) /\
  calls (snd (RequestHandler.do_GET "/item/" w)) = calls w.
Proof. split; reflexivity. Qed.


(** ** More on initialisation *)

Lemma table_load_eq (w : world) :
  table_load w =
  (match next_fault w with
   | Some f => Raise (exn_of_fault f)
   | None =>
       match table w with
       | Some _ => Return tt
       | None => Raise ResourceNotFound
       end
   end, record_call TableLoad w).
Proof.
  unfold table_load, bind. rewrite request_eq.
  destruct (next_fault w); [reflexivity|].
  unfold with_table. simpl. destruct (table w); reflexivity.
Qed.

Lemma dynamodb_create_table_eq (w : world) :
  dynamodb_create_table w =
  match next_fault w with
  | Some f => (Raise (exn_of_fault f), record_call TableCreate w)
  | None =>
      match table w with
      | Some _ =>
          (Raise (ClientError "ResourceInUseException" "Table already exists"),
           record_call TableCreate w)
      | None => (Return tt, set_table (Some ∅) (record_call TableCreate w))
      end
  end.
Proof.
  unfold dynamodb_create_table, bind. rewrite request_eq.
  destruct (next_fault w); [reflexivity|]. simpl.
  destruct (table w); reflexivity.
Qed.

Lemma waiter_wait_eq (w : world) :
  waiter_wait w =
  (match next_fault w with
   | Some f => Raise (exn_of_fault f)
   | None =>
       match table w with
       | Some _ => Return tt
       | None => Raise (BotoCoreError "WaiterError")
       end
   end, record_call TableWait w).
Proof.
  unfold waiter_wait, bind. rewrite request_eq.
  destruct (next_fault w); [reflexivity|]. simpl.
  destruct (table w); reflexivity.
Qed.

(** X1.  In a healthy world without the table, [_create_table] returns
    after exactly three calls, the existence check, the creation and the
    wait; the table then exists and is empty, and neither the bucket nor the
    output was touched. *)
Theorem create_table_creates_missing_table (w : world) :
  healthy w ->
  table w = None ->
  fst (Database._create_table w) = Return tt /\
  table (snd (Database._create_table w)) = Some ∅ /\
  bucket (snd (Database._create_table w)) = bucket w /\
  stdout (snd (Database._create_table w)) = stdout w /\
  calls (snd (Database._create_table w))
    = calls w ++ [TableLoad; TableCreate; TableWait] /\
  healthy (snd (Database._create_table w)).
Proof.
  intros Hh Ht.
  rewrite create_table_eq, table_load_eq, (healthy_next_fault w Hh), Ht.
  simpl. unfold bind.
  rewrite dynamodb_create_table_eq.
  rewrite healthy_next_fault by auto with healthy.
  simpl. rewrite Ht.
  rewrite waiter_wait_eq.
  rewrite healthy_next_fault by auto with healthy.
  simpl. rewrite <- !app_assoc. simpl.
  repeat split; auto with healthy.
Qed.

Lemma create_table_creates_missing_table_witness :
  healthy no_table /\
  fst (Database._create_table no_table) = Return tt /\
  table (snd (Database._create_table no_table)) = Some ∅.
Proof.
  assert (Hh : healthy no_table) by constructor.
  pose proof (create_table_creates_missing_table no_table Hh eq_refl)
    as (Hr & Ht & _).
  auto.
Defined.

(** X2.  [_create_table] never loses data: whatever the services answer,
    a table that exists keeps exactly its rows, and the bucket and the
    output are as before. *)
Theorem create_table_keeps_existing_rows
    (w : world) (t : gmap string item) :
  table w = Some t ->
  table (snd (Database._create_table w)) = Some t /\
  bucket (snd (Database._create_table w)) = bucket w /\
  stdout (snd (Database._create_table w)) = stdout w.
Proof.
  intros Ht. rewrite create_table_eq, table_load_eq.
  destruct (next_fault w) as [[code message|name]|]; simpl.
  - destruct (String.eqb code "ResourceNotFoundException"); [|simpl; auto].
    unfold bind. rewrite dynamodb_create_table_eq.
    destruct (next_fault (record_call TableLoad w)); simpl; [auto|].
    rewrite Ht. simpl. auto.
  - auto.
  - rewrite Ht. simpl. auto.
Qed.

Lemma create_table_keeps_existing_rows_witness :
  table (snd (Database._create_table stored_1)) = table stored_1 /\
  table (snd (Database._create_table blob_down)) = table blob_down.
Proof.
  split.
  - exact (proj1 (create_table_keeps_existing_rows stored_1 _ eq_refl)).
  - exact (proj1 (create_table_keeps_existing_rows blob_down _ eq_refl)).
Defined.

(** X3.  Initialisation is idempotent in a healthy world: [_create_table]
    returns with the table in existence, and running it again is a single
    existence check that changes nothing else. *)
Theorem create_table_idempotent (w : world) :
  healthy w ->
  fst (Database._create_table w) = Return tt /\
  is_Some (table (snd (Database._create_table w))) /\
  Database._create_table (snd (Database._create_table w))
    = (Return tt, record_call TableLoad (snd (Database._create_table w))).
Proof.
  intros Hh.
  assert (Hex : forall w1, healthy w1 -> is_Some (table w1) ->
                Database._create_table w1 = (Return tt, record_call TableLoad w1)).
  { intros w1 Hh1 [t1 Ht1].
    rewrite create_table_eq, table_load_eq, (healthy_next_fault w1 Hh1), Ht1.
    reflexivity. }
  destruct (table w) as [t|] eqn:Ht.
  - rewrite (Hex w Hh) by (rewrite Ht; eauto). simpl.
    split; [reflexivity|]. split; [rewrite Ht; eauto|].
    apply Hex; [auto with healthy | simpl; rewrite Ht; eauto].
  - destruct (create_table_creates_missing_table w Hh Ht)
      as (Hr & Ht1 & _ & _ & _ & Hh1).
    split; [exact Hr|]. split; [rewrite Ht1; eauto|].
    apply Hex; [exact Hh1 | rewrite Ht1; eauto].
Qed.

Lemma create_table_idempotent_witness :
  healthy no_table /\
  calls (snd (Database._create_table (snd (Database._create_table no_table))))
    = [TableLoad; TableCreate; TableWait; TableLoad].
Proof.
  assert (Hh : healthy no_table) by constructor.
  pose proof (create_table_idempotent no_table Hh) as (_ & _ & H2).
  split; [exact Hh|]. rewrite H2. vm_compute. reflexivity.
Defined.

(** X4.  An error raised inside the handler is not caught: when the table
    is missing and the service refuses to create it, the exception of the
    creation call, a [ClientError] included, leaves [_create_table]; the
    wait is never started and the table still does not exist. *)
Theorem create_table_creation_error_escapes (w : world) (f : fault) :
  table w = None ->
  next_fault w = None ->
  next_fault (record_call TableLoad w) = Some f ->
  fst (Database._create_table w) = Raise (exn_of_fault f) /\
  table (snd (Database._create_table w)) = None /\
  calls (snd (Database._create_table w)) = calls w ++ [TableLoad; TableCreate].
Proof.
  intros Ht Hf1 Hf2.
  rewrite create_table_eq, table_load_eq, Hf1, Ht. simpl. unfold bind.
  rewrite dynamodb_create_table_eq, Hf2. simpl.
  rewrite <- app_assoc. auto.
Qed.

Lemma create_table_creation_error_escapes_witness :
  fst (Database._create_table create_refused)
    = Raise (ClientError "LimitExceededException"
               "Too many tables are being created") /\
  table (snd (Database._create_table create_refused)) = None.
Proof.
  pose proof (create_table_creation_error_escapes create_refused
                (ServiceError "LimitExceededException"
                   "Too many tables are being created")
                eq_refl eq_refl eq_refl) as (Hr & Ht & _).
  auto.
Defined.

(** ** More on lookups *)

(** X5.  [get_item] only reads: whatever the service answers, the table and
    the bucket are as before and exactly one call, the lookup, was made.  A
    line is printed only on the way to answering [None]. *)
Theorem get_item_read_only (item_id : value) (w : world) :
  table (snd (Database.get_item item_id w)) = table w /\
  bucket (snd (Database.get_item item_id w)) = bucket w /\
  calls (snd (Database.get_item item_id w)) = calls w ++ [TableGet item_id] /\
  (stdout (snd (Database.get_item item_id w)) = stdout w \/
   fst (Database.get_item item_id w) = Return None /\
   exists message,
     stdout (snd (Database.get_item item_id w)) = stdout w ++ [message]).
Proof.
  rewrite get_item_eq, table_get_item_eq.
  destruct (next_fault w) as [[code message|name]|]; simpl.
  - repeat split; auto. right. eauto.
  - auto.
  - destruct (table w) eqn:Ht; simpl.
    + destruct (key_of item_id); simpl.
      * auto.
      * repeat split; auto. right. eauto.
    + repeat split; auto. right. eauto.
Qed.

(** X6.  A positive answer of [get_item] can be trusted, whatever the state
    of the services: an item is returned only for a string id whose row
    holds exactly that item.  And when the lookup call goes through, a row
    that exists is returned. *)
Theorem get_item_found (item_id : value) (it : item) (w : world) :
  (fst (Database.get_item item_id w) = Return (Some it) ->
   exists k, item_id = VStr k /\ row k w = Some it) /\
  (next_fault w = None ->
   forall k, item_id = VStr k -> row k w = Some it ->
   fst (Database.get_item item_id w) = Return (Some it)).
Proof.
  rewrite get_item_eq, table_get_item_eq. unfold row. split.
  - destruct (next_fault w) as [[code message|name]|]; simpl; try discriminate.
    destruct (table w) as [t|]; simpl; [|discriminate].
    destruct item_id; simpl; try discriminate.
    intros [= H]. eauto.
  - intros -> k -> Hrow.
    destruct (table w) as [t|]; simpl in *; [|discriminate].
    rewrite Hrow. reflexivity.
Qed.

Lemma get_item_found_witness :
  row "1" stored_1 = Some item_1 /\
  fst (Database.get_item (VStr "1") blob_down) = Return (Some item_1).
Proof.
  pose proof (get_item_found (VStr "1") item_1 stored_1) as [Hs _].
  destruct (Hs ltac:(vm_compute; reflexivity)) as (k & Hk & Hrow).
  injection Hk as <-.
  pose proof (get_item_found (VStr "1") item_1 blob_down) as [_ Hc].
  split; [exact Hrow|].
  exact (Hc eq_refl "1" eq_refl ltac:(vm_compute; reflexivity)).
Defined.

(** ** More on writes *)

Lemma table_put_item_healthy (it : item) (w : world) :
  healthy w -> healthy (snd (table_put_item it w)).
Proof.
  intros Hh. rewrite table_put_item_eq, (healthy_next_fault w Hh).
  destruct (table w); simpl; [|auto with healthy].
  destruct (it !! "id" ≫= key_of); simpl; auto with healthy.
Qed.

(** X7.  Create-or-overwrite: when the table call of [put_item] returns,
    which the table grants only for an item it accepts, under a non-empty
    string id, the item is stored whatever row was there before, and in a
    healthy world a lookup of that id afterwards, by [get_item] or by the
    test's direct read, returns the item, although [put_item] itself ended
    in [NameError]. *)
Theorem put_item_then_get_item (it : item) (k : string) (w w1 : world) :
  healthy w ->
  table_put_item it w = (Return tt, w1) ->
  it !! "id" = Some (VStr k) ->
  k <> "" ->
  Database.put_item it w = (Raise (NameError "json"), w1) /\
  row k w1 = Some it /\
  fst (Database.get_item (VStr k) w1) = Return (Some it) /\
  fst (get_dynamodb_item (VStr k) w1) = Return (Some it).
Proof.
  intros Hh Hput Hid _.
  pose proof (table_put_item_healthy it w Hh) as Hh1.
  rewrite Hput in Hh1. simpl in Hh1.
  destruct (table_put_item_Return it w w1 Hput) as (t & k0 & Ht & Hid0 & Ht1).
  rewrite Hid in Hid0. injection Hid0 as <-.
  assert (Hget : table_get_item (VStr k) w1
                 = (Return (Response (Some it)), record_call (TableGet (VStr k)) w1)).
  { rewrite table_get_item_eq, (healthy_next_fault w1 Hh1), Ht1. simpl.
    rewrite lookup_insert_eq. reflexivity. }
  split; [rewrite put_item_eq, Hput; reflexivity|]. split; [|split].
  - unfold row. rewrite Ht1. simpl. apply lookup_insert_eq.
  - rewrite get_item_eq, Hget. reflexivity.
  - unfold get_dynamodb_item, bind. rewrite Hget. reflexivity.
Qed.

Lemma put_item_then_get_item_witness :
  healthy stored_1 /\
  fst (Database.get_item (VStr "1")
         (snd (Database.put_item (<["name" := VStr "Item 1 Updated"]> item_1)
                 stored_1)))
    = Return (Some (<["name" := VStr "Item 1 Updated"]> item_1)).
Proof.
  assert (Hh : healthy stored_1) by constructor.
  assert (Hput : table_put_item (<["name" := VStr "Item 1 Updated"]> item_1) stored_1
                 = (Return tt,
                    snd (table_put_item (<["name" := VStr "Item 1 Updated"]> item_1)
                           stored_1)))
    by (vm_compute; reflexivity).
  assert (Hid : (<["name" := VStr "Item 1 Updated"]> item_1 : item) !! "id"
                = Some (VStr "1")) by (vm_compute; reflexivity).
  assert (Hne : "1" <> "") by discriminate.
  pose proof (put_item_then_get_item
                (<["name" := VStr "Item 1 Updated"]> item_1) "1" stored_1 _
                Hh Hput Hid Hne) as (Hp & _ & Hg & _).
  split; [exact Hh|]. rewrite Hp. exact Hg.
Defined.

(** X8.  [put_item] touches no row but the item's own: whatever the
    services answer, the row under any key other than the item's [id] is as
    before. *)
Theorem put_item_other_rows (it : item) (k' : string) (w : world) :
  it !! "id" <> Some (VStr k') ->
  row k' (snd (Database.put_item it w)) = row k' w.
Proof.
  intros Hne. rewrite put_item_eq.
  destruct (table_put_item it w) as [[[]|e] w1] eqn:Hput.
  - destruct (table_put_item_Return it w w1 Hput) as (t & k & Ht & Hid & Ht1).
    unfold row. simpl. rewrite Ht, Ht1. simpl.
    apply lookup_insert_ne. intros ->. apply Hne. exact Hid.
  - pose proof (table_put_item_Raise it w w1 e Hput) as Ht.
    unfold row. destruct e; simpl; rewrite Ht; reflexivity.
Qed.

Lemma put_item_other_rows_witness :
  row "1" (snd (Database.put_item (<["id" := VStr "2"]> item_1) stored_1))
    = Some item_1.
Proof.
  assert (Hne : (<["id" := VStr "2"]> item_1 : item) !! "id" <> Some (VStr "1")).
  { intros H. vm_compute in H. discriminate H. }
  rewrite (put_item_other_rows (<["id" := VStr "2"]> item_1) "1" stored_1 Hne).
  vm_compute. reflexivity.
Defined.




(** ** More on deletions *)

Lemma key_of_Some (v : value) (k : string) : key_of v = Some k -> v = VStr k.
Proof. destruct v; simpl; try discriminate. intros [= ->]. reflexivity. Qed.

(** What a table deletion leaves in the table. *)
Lemma table_delete_item_table (item_id : value) (w : world) :
  table (snd (table_delete_item item_id w)) = table w \/
  exists t k, item_id = VStr k /\ table w = Some t /\
              fst (table_delete_item item_id w) = Return tt /\
              table (snd (table_delete_item item_id w)) = Some (delete k t).
Proof.
  rewrite table_delete_item_eq.
  destruct (next_fault w); [left; reflexivity|].
  destruct (table w) as [t|] eqn:Ht; [|left; exact Ht].
  destruct (key_of item_id) as [k|] eqn:Hk; [|left; exact Ht].
  right. exists t, k. rewrite (key_of_Some _ _ Hk). auto.
Qed.

Lemma table_delete_item_bucket (item_id : value) (w : world) :
  bucket (snd (table_delete_item item_id w)) = bucket w.
Proof.
  rewrite table_delete_item_eq.
  destruct (next_fault w); [reflexivity|].
  destruct (table w); [|reflexivity].
  destruct (key_of item_id); reflexivity.
Qed.

(** [delete_item] leaves the table as its table call left it. *)
Lemma delete_item_table (item_id : value) (w : world) :
  table (snd (Database.delete_item item_id w))
    = table (snd (table_delete_item item_id w)).
Proof.
  rewrite delete_item_eq.
  destruct (table_delete_item item_id w) as [[[]|e] w1]; simpl.
  - destruct (delete_object_table_calls item_id w1) as [Ht _].
    destruct (S3Bucket.delete_object item_id w1) as [[[]|e] w2]; simpl in *;
      [exact Ht | destruct e; exact Ht].
  - destruct e; reflexivity.
Qed.

(** What [delete_item] leaves in the bucket. *)
Lemma delete_item_bucket (item_id : value) (w : world) :
  bucket (snd (Database.delete_item item_id w)) = bucket w \/
  exists k, item_id = VStr k /\
            bucket (snd (Database.delete_item item_id w)) = delete k (bucket w).
Proof.
  rewrite delete_item_eq.
  pose proof (table_delete_item_bucket item_id w) as Hb.
  destruct (table_delete_item item_id w) as [[[]|e] w1]; simpl in Hb.
  - rewrite delete_object_eq.
    destruct (next_fault w1) as [[code message|name]|]; simpl; auto.
    destruct (key_of item_id) as [k|] eqn:Hk; simpl; auto.
    right. exists k. rewrite Hb, (key_of_Some _ _ Hk). auto.
  - destruct e; simpl; auto.
Qed.

(** X10.  [delete_item] touches nothing but the id it is given: whatever
    the services answer, the row and the object under any other key are as
    before. *)
Theorem delete_item_other_keys (item_id : value) (k' : string) (w : world) :
  item_id <> VStr k' ->
  row k' (snd (Database.delete_item item_id w)) = row k' w /\
  object k' (snd (Database.delete_item item_id w)) = object k' w.
Proof.
  intros Hne. unfold row, object. split.
  - rewrite delete_item_table.
    destruct (table_delete_item_table item_id w)
      as [-> | (t & k & -> & Ht & _ & ->)]; [reflexivity|].
    rewrite Ht. simpl. apply lookup_delete_ne. congruence.
  - destruct (delete_item_bucket item_id w) as [-> | (k & -> & ->)];
      [reflexivity|].
    apply lookup_delete_ne. congruence.
Qed.

Lemma delete_item_other_keys_witness :
  row "1" (snd (Database.delete_item (VStr "2") stored_1)) = Some item_1 /\
  object "1" (snd (Database.delete_item (VStr "2") stored_1))
    = Some (json_dumps item_1).
Proof.
  assert (Hne : VStr "2" <> VStr "1") by discriminate.
  destruct (delete_item_other_keys (VStr "2") "1" stored_1 Hne) as [Hr Ho].
  rewrite Hr, Ho. split; vm_compute; reflexivity.
Defined.

(** The table write of a healthy world, spelt out. *)
Lemma put_item_healthy (it : item) (k : string) (t : gmap string item)
    (w : world) :
  healthy w -> table w = Some t -> it !! "id" = Some (VStr k) ->
  Database.put_item it w
    = (Raise (NameError "json"),
       set_table (Some (<[k := it]> t)) (record_call (TablePut it) w)).
Proof.
  intros Hh Ht Hid.
  rewrite put_item_eq, table_put_item_eq, (healthy_next_fault w Hh), Ht, Hid.
  reflexivity.
Qed.

(** X11.  Writing an item and then deleting its id, in a healthy world
    whose table exists, leaves no trace of it: [delete_item] returns, the
    id has neither a row nor an object, and [get_item] answers [None]. *)
Theorem put_item_then_delete_item (it : item) (k : string) (w : world) :
  healthy w ->
  is_Some (table w) ->
  it !! "id" = Some (VStr k) ->
  fst (Database.delete_item (VStr k) (snd (Database.put_item it w)))
    = Return tt /\
  row k (snd (Database.delete_item (VStr k) (snd (Database.put_item it w))))
    = None /\
  object k (snd (Database.delete_item (VStr k) (snd (Database.put_item it w))))
    = None /\
  fst (Database.get_item (VStr k)
         (snd (Database.delete_item (VStr k) (snd (Database.put_item it w)))))
    = Return None.
Proof.
  intros Hh [t Ht] Hid.
  rewrite (put_item_healthy it k t w Hh Ht Hid). simpl.
  set (w1 := set_table _ _).
  assert (Hh1 : healthy w1) by (subst w1; auto with healthy).
  destruct (delete_item_healthy (VStr k) w1 Hh1) as (Hr & Hh2 & Ht2 & Hb2).
  simpl in Ht2, Hb2.
  set (w2 := snd (Database.delete_item (VStr k) w1)) in *.
  split; [exact Hr|]. unfold row, object. rewrite Ht2, Hb2. simpl.
  rewrite !lookup_delete_eq. split; [reflexivity|]. split; [reflexivity|].
  rewrite (get_item_healthy k w2 _ Hh2 Ht2), lookup_delete_eq. reflexivity.
Qed.

Lemma put_item_then_delete_item_witness :
  healthy cleared /\
  fst (Database.get_item (VStr "1")
         (snd (Database.delete_item (VStr "1")
                 (snd (Database.put_item item_1 cleared))))) = Return None.
Proof.
  assert (Hh : healthy cleared) by constructor.
  pose proof (put_item_then_delete_item item_1 "1" cleared Hh
                ltac:(simpl; eauto) ltac:(vm_compute; reflexivity))
    as (_ & _ & _ & Hg).
  auto.
Defined.

Lemma table_delete_item_stdout (item_id : value) (w : world) :
  stdout (snd (table_delete_item item_id w)) = stdout w.
Proof.
  rewrite table_delete_item_eq.
  destruct (next_fault w); [reflexivity|].
  destruct (table w); [|reflexivity].
  destruct (key_of item_id); reflexivity.
Qed.

(** X12.  A deletion can stop half way without the caller noticing: when
    the table call of [delete_item] returns, for a non-empty id, and the
    bucket call that follows is answered with an error response,
    [delete_item] prints that message and returns normally; the row is gone
    and the object is still there. *)
Theorem delete_item_blob_error_masked
    (k : string) (w w1 : world) (code message : string) :
  table_delete_item (VStr k) w = (Return tt, w1) ->
  k <> "" ->
  next_fault w1 = Some (ServiceError code message) ->
  fst (Database.delete_item (VStr k) w) = Return tt /\
  row k (snd (Database.delete_item (VStr k) w)) = None /\
  object k (snd (Database.delete_item (VStr k) w)) = object k w /\
  stdout (snd (Database.delete_item (VStr k) w)) = stdout w ++ [message].
Proof.
  intros Hdel _ Hf.
  pose proof (table_delete_item_bucket (VStr k) w) as Hb.
  pose proof (table_delete_item_stdout (VStr k) w) as Hs.
  assert (Hrow : row k w1 = None).
  { destruct (table_delete_item_table (VStr k) w)
      as [Ht | (t & k0 & Hk & _ & _ & Ht)]; rewrite Hdel in Ht; simpl in Ht.
    - rewrite table_delete_item_eq in Hdel.
      destruct (next_fault w); [discriminate|].
      destruct (table w) as [t|]; [|discriminate].
      simpl in Hdel. injection Hdel as <-. unfold row. simpl.
      apply lookup_delete_eq.
    - injection Hk as <-. unfold row. rewrite Ht. simpl.
      apply lookup_delete_eq. }
  rewrite delete_item_eq. rewrite Hdel in *. simpl in Hb, Hs.
  rewrite delete_object_eq, Hf. simpl.
  unfold row, object in *. simpl. rewrite Hb, Hs. auto.
Qed.

Lemma delete_item_blob_error_masked_witness :
  fst (Database.delete_item (VStr "1") blob_down) = Return tt /\
  row "1" (snd (Database.delete_item (VStr "1") blob_down)) = None /\
  object "1" (snd (Database.delete_item (VStr "1") blob_down))
    = Some (json_dumps item_1) /\
  stdout (snd (Database.delete_item (VStr "1") blob_down))
    = ["Please reduce your request rate"].
Proof.
  assert (Hdel : table_delete_item (VStr "1") blob_down
                 = (Return tt, snd (table_delete_item (VStr "1") blob_down)))
    by (vm_compute; reflexivity).
  assert (Hne : "1" <> "") by discriminate.
  pose proof (delete_item_blob_error_masked "1" blob_down _ "ServiceUnavailable"
                "Please reduce your request rate" Hdel Hne eq_refl)
    as (Hr & Hrow & Ho & Hs).
  rewrite Ho in *. auto.
Defined.

(** X13.  When the table call of [delete_item] raises, the bucket is never
    called: the table and the bucket are both as before, and the deletion
    request to the table is the only call made. *)
Theorem delete_item_table_error_skips_bucket
    (item_id : value) (w w1 : world) (e : exn) :
  table_delete_item item_id w = (Raise e, w1) ->
  table (snd (Database.delete_item item_id w)) = table w /\
  bucket (snd (Database.delete_item item_id w)) = bucket w /\
  calls (snd (Database.delete_item item_id w))
    = calls w ++ [TableDelete item_id].
Proof.
  intros Hdel.
  pose proof (table_delete_item_bucket item_id w) as Hb.
  pose proof (table_delete_item_calls item_id w) as Hc.
  rewrite delete_item_table.
  destruct (table_delete_item_table item_id w) as [Ht | (t & k & _ & _ & Hr & _)];
    [|rewrite Hdel in Hr; discriminate Hr].
  rewrite delete_item_eq. rewrite Hdel in *. simpl in *.
  destruct e; simpl; auto.
Qed.

Lemma delete_item_table_error_skips_bucket_witness :
  object "1" (snd (Database.delete_item (VStr "1")
                     {| table := table stored_1; bucket := bucket stored_1;
                        stdout := []; calls := []; faults := faults unreachable |}))
    = Some (json_dumps item_1).
Proof.
  pose proof (delete_item_table_error_skips_bucket (VStr "1")
                {| table := table stored_1; bucket := bucket stored_1;
                   stdout := []; calls := []; faults := faults unreachable |}
                _ (BotoCoreError "EndpointConnectionError") eq_refl)
    as (_ & Hb & _).
  unfold object. rewrite Hb. vm_compute. reflexivity.
Defined.

(** ** What the four methods keep *)

(** What [_create_table] leaves in the table. *)
Lemma create_table_table (w : world) :
  table (snd (Database._create_table w)) = table w \/
  table w = None /\ table (snd (Database._create_table w)) = Some ∅.
Proof.
  rewrite create_table_eq, table_load_eq.
  assert (Hcreate : forall w1, table w1 = table w ->
            table (snd (bind dynamodb_create_table (fun _ => waiter_wait) w1))
              = table w \/
            table w = None /\
            table (snd (bind dynamodb_create_table (fun _ => waiter_wait) w1))
              = Some ∅).
  { intros w1 Hw1. unfold bind. rewrite dynamodb_create_table_eq.
    destruct (next_fault w1); simpl; [auto|].
    destruct (table w1) eqn:Ht1; simpl; [left; congruence|].
    rewrite waiter_wait_eq. simpl. right. split; congruence. }
  destruct (next_fault w) as [[code message|name]|]; simpl; auto.
  - destruct (String.eqb code "ResourceNotFoundException"); simpl; auto.
  - destruct (table w) eqn:Ht; simpl; [auto|].
    exact (Hcreate (record_call TableLoad w) Ht).
Qed.

(** What [put_item] leaves in the table. *)
Lemma put_item_table (it : item) (w : world) :
  table (snd (Database.put_item it w)) = table w \/
  exists t k, table w = Some t /\ it !! "id" = Some (VStr k) /\
              table (snd (Database.put_item it w)) = Some (<[k := it]> t).
Proof.
  rewrite put_item_eq.
  destruct (table_put_item it w) as [[[]|e] w1] eqn:Hput.
  - right. exact (table_put_item_Return it w w1 Hput).
  - left. pose proof (table_put_item_Raise it w w1 e Hput) as Ht.
    destruct e; exact Ht.
Qed.

(** X14.  Rows stay under their own id: if every row of the table sits
    under the key that its [id] field names, this is still so after
    [_create_table], [get_item], [put_item] and [delete_item], whatever the
    services answer. *)
Theorem database_keeps_rows_under_their_id
    (it : item) (item_id : value) (w : world) :
  well_keyed w ->
  well_keyed (snd (Database._create_table w)) /\
  well_keyed (snd (Database.get_item item_id w)) /\
  well_keyed (snd (Database.put_item it w)) /\
  well_keyed (snd (Database.delete_item item_id w)).
Proof.
  intros Hwk. unfold well_keyed in *. repeat split.
  - intros t k r Ht Hr.
    destruct (create_table_table w) as [He | [_ He]]; rewrite He in Ht.
    + eauto.
    + injection Ht as <-. rewrite lookup_empty in Hr. discriminate Hr.
  - intros t k r Ht Hr.
    rewrite (proj1 (get_item_stores item_id w)) in Ht. eauto.
  - intros t k r Ht Hr.
    destruct (put_item_table it w) as [He | (t0 & k0 & Ht0 & Hid & He)];
      rewrite He in Ht.
    + eauto.
    + injection Ht as <-.
      destruct (decide (k0 = k)) as [->|Hne].
      * rewrite lookup_insert_eq in Hr. injection Hr as <-. exact Hid.
      * rewrite lookup_insert_ne in Hr by exact Hne. eauto.
  - intros t k r Ht Hr. rewrite delete_item_table in Ht.
    destruct (table_delete_item_table item_id w)
      as [He | (t0 & k0 & _ & Ht0 & _ & He)]; rewrite He in Ht.
    + eauto.
    + injection Ht as <-.
      destruct (decide (k0 = k)) as [->|Hne].
      * rewrite lookup_delete_eq in Hr. discriminate Hr.
      * rewrite lookup_delete_ne in Hr by exact Hne. eauto.
Qed.

Lemma well_keyed_stored_1 : well_keyed stored_1.
Proof.
  intros t k r [= <-] Hr.
  destruct (decide ("1" = k)) as [<-|Hne].
  - rewrite lookup_insert_eq in Hr. injection Hr as <-. reflexivity.
  - rewrite lookup_insert_ne, lookup_empty in Hr by exact Hne. discriminate Hr.
Qed.

Lemma database_keeps_rows_under_their_id_witness :
  well_keyed stored_1 /\
  well_keyed (snd (Database.put_item (<["id" := VStr "2"]> item_1) stored_1)).
Proof.
  pose proof (database_keeps_rows_under_their_id
                (<["id" := VStr "2"]> item_1) (VStr "1") stored_1
                well_keyed_stored_1) as (_ & _ & Hp & _).
  split; [exact well_keyed_stored_1 | exact Hp].
Defined.

(** X15.  In a table whose rows sit under their own ids, the item that
    [get_item] returns carries the id that was asked for, whatever the
    services answer. *)
Theorem get_item_result_has_id (k : string) (it : item) (w : world) :
  well_keyed w ->
  fst (Database.get_item (VStr k) w) = Return (Some it) ->
  it !! "id" = Some (VStr k).
Proof.
  intros Hwk. rewrite get_item_eq, table_get_item_eq.
  destruct (next_fault w) as [[code message|name]|]; simpl; try discriminate.
  destruct (table w) as [t|] eqn:Ht; simpl; [|discriminate].
  intros [= Hrow]. exact (Hwk t k it Ht Hrow).
Qed.

Lemma get_item_result_has_id_witness :
  well_keyed stored_1 /\
  fst (Database.get_item (VStr "1") stored_1) = Return (Some item_1) /\
  item_1 !! "id" = Some (VStr "1").
Proof.
  assert (Hg : fst (Database.get_item (VStr "1") stored_1) = Return (Some item_1))
    by (vm_compute; reflexivity).
  pose proof (get_item_result_has_id "1" item_1 stored_1 well_keyed_stored_1 Hg)
    as Hid.
  auto using well_keyed_stored_1.
Defined.

(** X16.  The three data methods neither create nor drop the table:
    whatever the services answer, the table exists after [get_item],
    [put_item] or [delete_item] exactly when it existed before.  In
    particular a write to a missing table does not bring it into
    existence. *)
Theorem data_methods_keep_table_existence
    (it : item) (item_id : value) (w : world) :
  (is_Some (table (snd (Database.get_item item_id w))) <-> is_Some (table w)) /\
  (is_Some (table (snd (Database.put_item it w))) <-> is_Some (table w)) /\
  (is_Some (table (snd (Database.delete_item item_id w))) <-> is_Some (table w)).
Proof.
  repeat split.
  - rewrite (proj1 (get_item_stores item_id w)). auto.
  - rewrite (proj1 (get_item_stores item_id w)). auto.
  - destruct (put_item_table it w) as [-> | (t & k & Ht & _ & _)];
      [auto | rewrite Ht; eauto].
  - destruct (put_item_table it w) as [-> | (t & k & _ & _ & ->)]; eauto.
  - rewrite delete_item_table.
    destruct (table_delete_item_table item_id w)
      as [-> | (t & k & _ & Ht & _ & _)]; [auto | rewrite Ht; eauto].
  - rewrite delete_item_table.
    destruct (table_delete_item_table item_id w)
      as [-> | (t & k & _ & _ & _ & ->)]; eauto.
Qed.

(** X17.  No [ClientError] ever leaves [put_item] or [delete_item].  An
    exception that leaves [put_item] is the [NameError] on [json], raised
    after the table call returned, or else the very exception the table
    call raised; an exception that leaves [delete_item] is the one its table
    call raised or, after that call returned, the one its bucket call
    raised.  The methods add no exception of their own besides the
    [NameError]. *)
Theorem put_and_delete_exceptions
    (it : item) (item_id : value) (w : world) :
  (forall code message,
     fst (Database.put_item it w) <> Raise (ClientError code message) /\
     fst (Database.delete_item item_id w) <> Raise (ClientError code message)) /\
  (forall e, fst (Database.put_item it w) = Raise e ->
     fst (table_put_item it w) = Return tt /\ e = NameError "json" \/
     fst (table_put_item it w) = Raise e) /\
  (forall e, fst (Database.delete_item item_id w) = Raise e ->
     fst (table_delete_item item_id w) = Raise e \/
     fst (table_delete_item item_id w) = Return tt /\
     fst (S3Bucket.delete_object item_id (snd (table_delete_item item_id w)))
       = Raise e).
Proof.
  split; [|split].
  - intros code message. split.
    + rewrite put_item_eq.
      destruct (table_put_item it w) as [[[]|[]] w1]; simpl; discriminate.
    + rewrite delete_item_eq.
      destruct (table_delete_item item_id w) as [[[]|[]] w1]; simpl;
        try discriminate.
      destruct (S3Bucket.delete_object item_id w1) as [[[]|[]] w2]; simpl;
        discriminate.
  - intros e. rewrite put_item_eq.
    destruct (table_put_item it w) as [[[]|e'] w1]; simpl.
    + intros [= <-]. auto.
    + destruct e'; simpl; [discriminate | | |]; intros [= <-]; auto.
  - intros e. rewrite delete_item_eq.
    destruct (table_delete_item item_id w) as [[[]|e'] w1]; simpl.
    + destruct (S3Bucket.delete_object item_id w1) as [[[]|e''] w2]; simpl.
      * discriminate.
      * destruct e''; simpl; [discriminate | | |]; intros [= <-]; auto.
    + destruct e'; simpl; [discriminate | | |]; intros [= <-]; auto.
Qed.

Lemma put_and_delete_exceptions_witness :
  fst (Database.put_item item_1 cleared) = Raise (NameError "json") /\
  fst (table_put_item item_1 cleared) = Return tt /\
  fst (Database.delete_item (VStr "1") unreachable)
    = fst (table_delete_item (VStr "1") unreachable).
Proof.
  assert (Hp : fst (Database.put_item item_1 cleared) = Raise (NameError "json"))
    by (vm_compute; reflexivity).
  assert (Hd : fst (Database.delete_item (VStr "1") unreachable)
               = Raise (BotoCoreError "EndpointConnectionError"))
    by (vm_compute; reflexivity).
  pose proof (put_and_delete_exceptions item_1 (VStr "1") cleared) as (_ & H & _).
  pose proof (put_and_delete_exceptions item_1 (VStr "1") unreachable)
    as (_ & _ & H').
  destruct (H _ Hp) as [[Ht _] | Ht]; [|vm_compute in Ht; discriminate Ht].
  destruct (H' _ Hd) as [Hd' | [Hd' _]]; [|vm_compute in Hd'; discriminate Hd'].
  split; [exact Hp|]. split; [exact Ht|]. rewrite Hd, Hd'. reflexivity.
Defined.

(** ** The test's direct read against the client *)

(** X18.  The direct read of the tests and [get_item] agree whenever the
    direct read returns: same answer, same world.  They part on an error
    response of the table: the direct read raises the [ClientError], which
    tells a failing service from a missing row, where [get_item] prints the
    message and answers [None]. *)
Theorem get_dynamodb_item_against_get_item
    (item_id : value) (w w1 : world) (r : result (option item)) :
  get_dynamodb_item item_id w = (r, w1) ->
  match r with
  | Return found => Database.get_item item_id w = (Return found, w1)
  | Raise (ClientError _ message) =>
      Database.get_item item_id w = (Return None, write_stdout message w1)
  | Raise e => Database.get_item item_id w = (Raise e, w1)
  end.
Proof.
  unfold get_dynamodb_item, bind. rewrite get_item_eq.
  destruct (table_get_item item_id w) as [[resp|e] w'].
  - intros [= <- <-]. reflexivity.
  - intros [= <- <-]. destruct e; reflexivity.
Qed.

Lemma get_dynamodb_item_against_get_item_witness :
  fst (get_dynamodb_item (VStr "1") throttled)
    = Raise (ClientError "ProvisionedThroughputExceededException"
               "Rate of requests exceeds the allowed throughput") /\
  fst (Database.get_item (VStr "1") throttled) = Return None /\
  Database.get_item (VStr "1") stored_1 = get_dynamodb_item (VStr "1") stored_1.
Proof.
  pose proof (get_dynamodb_item_against_get_item (VStr "1") throttled
                (snd (get_dynamodb_item (VStr "1") throttled))
                (Raise (ClientError "ProvisionedThroughputExceededException"
                          "Rate of requests exceeds the allowed throughput"))
                ltac:(vm_compute; reflexivity)) as H1.
  pose proof (get_dynamodb_item_against_get_item (VStr "1") stored_1
                (snd (get_dynamodb_item (VStr "1") stored_1))
                (Return (Some item_1))
                ltac:(vm_compute; reflexivity)) as H2.
  simpl in H1, H2. rewrite H1, H2.
  split; [vm_compute; reflexivity|].
  split; [reflexivity|]. vm_compute. reflexivity.
Defined.
